(** * medify-microservice: the order-placement workflow

    A shallow embedding of the two FastAPI services of the repository,

      - [src/user-service/app/main.py]  (module [UserService]) and
      - [src/order-service/app/main.py] (module [OrderService]),

    and of the way the second calls the first (module [Deployment]),
    followed by the properties of the order admission workflow.

    Conventions.  A Python [str] is a [string], one [ascii] per character.
    A Python [int] is a [Z], a [float] a primitive binary64 [float].  An
    instant of UTC time is a number of microseconds ([N]); the code stores
    its ISO-8601 rendering, which is not modelled.  Coroutines are run to
    completion one after the other: a handler is a function from the state
    of the world before the call to a result and the state after it. *)

From Stdlib Require Import String Ascii List Bool ZArith NArith Lia Floats.
From Stdlib Require Import Permutation Sorted.
Import ListNotations.

Local Open Scope string_scope.
Local Open Scope list_scope.

(* ================================================================== *)
(** ** bson: object identifiers *)

Module Bson.

(** An [ObjectId] is twelve bytes; it is kept as the number those bytes
    spell in base 256, most significant byte first, which is also how two
    identifiers compare. *)
Definition ObjectId := N.

Definition hex_digit (c : ascii) : option N :=
  let n := N_of_ascii c in
  if ((48 <=? n) && (n <=? 57))%N then Some (n - 48)%N
  else if ((97 <=? n) && (n <=? 102))%N then Some (n - 87)%N
  else if ((65 <=? n) && (n <=? 70))%N then Some (n - 55)%N
  else None.

Fixpoint fromhex (s : string) (acc : N) : option N :=
  match s with
  | EmptyString => Some acc
  | String c rest =>
      match hex_digit c with
      | Some d => fromhex rest (16 * acc + d)%N
      | None => None
      end
  end.

(** [ObjectId(oid)] for a [str] argument: the text must be 24 hexadecimal
    digits, anything else raises [InvalidId] ([None] here). *)
Definition ObjectId_of_str (oid : string) : option ObjectId :=
  if (String.length oid =? 24)%nat then fromhex oid 0%N else None.

Definition hex_char (d : N) : ascii :=
  if (d <? 10)%N then ascii_of_N (48 + d) else ascii_of_N (87 + d).

Fixpoint hex_digits (n : nat) (v : N) (acc : string) : string :=
  match n with
  | O => acc
  | S n' => hex_digits n' (v / 16)%N (String (hex_char (v mod 16)%N) acc)
  end.

(** [str(oid)]: 24 lower-case hexadecimal digits. *)
Definition str (oid : ObjectId) : string := hex_digits 24 oid "".

End Bson.

(* ================================================================== *)
(** ** Values exchanged over HTTP *)

(** What [Response.json()] evaluates to; [JNull] is Python's [None]. *)
#[local] Unset Elimination Schemes.
Inductive json : Type :=
| JNull
| JBool (b : bool)
| JInt (z : Z)
| JFloat (f : float)
| JStr (s : string)
| JList (l : list json)
| JDict (kv : list (string * json)).
#[local] Set Elimination Schemes.

Definition is_None (v : json) : bool :=
  match v with JNull => true | _ => false end.

Module Httpx.

(** An [httpx.Response]: the status line and what [json()] gives, [None]
    when the body is not JSON ([json()] raises). *)
Record Response : Type := mkResponse {
  status_code : Z;
  json_body : option json
}.

(** The end of [await client.get(...)]: a response, or an
    [httpx.RequestError] (connection refused, timeout, DNS failure...). *)
Inductive outcome : Type :=
| RequestError
| Received (resp : Response).

End Httpx.

(** Exceptions a handler can end with. *)
Inductive exn : Type :=
| HTTPException (status_code : Z) (detail : string)
| JSONDecodeError
| DuplicateKeyError
| TypeError.

Inductive result (A : Type) : Type :=
| Ok (a : A)
| Raise (e : exn).
Arguments Ok {A} a.
Arguments Raise {A} e.

(** What FastAPI sends back for a handler. *)
Inductive body (A : Type) : Type :=
| Payload (a : A)
| Detail (msg : string)
| ValidationErrors
| InternalServerError.
Arguments Payload {A} a.
Arguments Detail {A} msg.
Arguments ValidationErrors {A}.
Arguments InternalServerError {A}.

Record reply (A : Type) : Type := mkReply {
  status : Z;
  content : body A
}.
Arguments mkReply {A} status content.
Arguments status {A} r.
Arguments content {A} r.

Module Fastapi.

(** The status of the default handler of [RequestValidationError]; neither
    application installs a handler of its own. *)
Definition HTTP_422_UNPROCESSABLE_ENTITY : Z := 422.

(** The reply for a handler that ran: its value under the route's
    [status_code], an [HTTPException] as its status and detail, any other
    exception as a bare 500. *)
Definition respond {A : Type} (success : Z) (r : result A) : reply A :=
  match r with
  | Ok a => mkReply success (Payload a)
  | Raise (HTTPException st msg) => mkReply st (Detail msg)
  | Raise _ => mkReply 500 InternalServerError
  end.

(** The reply for a request whose body failed validation: the handler is
    not run. *)
Definition reject {A : Type} : reply A :=
  mkReply HTTP_422_UNPROCESSABLE_ENTITY ValidationErrors.

End Fastapi.

(* ================================================================== *)
(** ** user-service *)

Module UserService.

(** A document of the [users] collection. *)
Record user_doc : Type := mkUserDoc {
  _id : Bson.ObjectId;
  name : string;
  email : string
}.

Record UserOut : Type := mkUserOut {
  out_id : string;
  out_name : string;
  out_email : string
}.

Definition _serialize_user (doc : user_doc) : UserOut :=
  mkUserOut (Bson.str (_id doc)) (name doc) (email doc).

(** [users.find_one({"_id": oid})]. *)
Definition find_one (users : list user_doc) (oid : Bson.ObjectId)
  : option user_doc :=
  find (fun d => N.eqb (_id d) oid) users.

Definition get_user (users : list user_doc) (user_id : string)
  : result UserOut :=
  match Bson.ObjectId_of_str user_id with
  | None => Raise (HTTPException 400 "Invalid user id")
  | Some oid =>
      match find_one users oid with
      | None => Raise (HTTPException 404 "User not found")
      | Some doc => Ok (_serialize_user doc)
      end
  end.

(** The reply of [GET /users/{user_id}] as a client reads it: a [UserOut]
    is sent as a JSON object, an [HTTPException] as its status with a
    [detail] member.  The stored addresses went through [EmailStr] when
    they were created, so the response model accepts them. *)
Definition to_json (u : UserOut) : json :=
  JDict [("id", JStr (out_id u)); ("name", JStr (out_name u));
         ("email", JStr (out_email u))].

Definition wire (r : reply UserOut) : Httpx.Response :=
  match content r with
  | Payload u => Httpx.mkResponse (status r) (Some (to_json u))
  | Detail msg => Httpx.mkResponse (status r) (Some (JDict [("detail", JStr msg)]))
  | ValidationErrors => Httpx.mkResponse (status r) (Some (JDict [("detail", JList [])]))
  | InternalServerError => Httpx.mkResponse (status r) None
  end.

Definition GET_users_id (users : list user_doc) (user_id : string)
  : Httpx.Response :=
  wire (Fastapi.respond 200 (get_user users user_id)).

End UserService.

(* ================================================================== *)
(** ** order-service *)

Module OrderService.

Record OrderItem : Type := mkOrderItem {
  sku : string;
  qty : Z
}.

(** The body of [POST /orders] once decoded, before the [Field]
    constraints are checked. *)
Record OrderCreate : Type := mkOrderCreate {
  user_id : string;
  items : list OrderItem;
  total : float
}.

Record OrderOut : Type := mkOrderOut {
  out_id : string;
  out_user_id : string;
  out_items : list OrderItem;
  out_total : float;
  out_created_at : N
}.

(** A document of the [orders] collection.  [item.model_dump()] is the
    item's two fields again, so an item is stored as it was received. *)
Record order_doc : Type := mkOrderDoc {
  _id : Bson.ObjectId;
  doc_user_id : string;
  doc_items : list OrderItem;
  doc_total : float;
  doc_created_at : N
}.

(** *** The [Field] constraints *)

Definition OrderItem_ok (i : OrderItem) : bool :=
  (1 <=? String.length (sku i))%nat && (String.length (sku i) <=? 64)%nat
  && (1 <=? qty i)%Z && (qty i <=? 1000)%Z.

Definition OrderCreate_ok (p : OrderCreate) : bool :=
  (1 <=? String.length (user_id p))%nat
  && (1 <=? List.length (items p))%nat
  && forallb OrderItem_ok (items p)
  && PrimFloat.ltb 0%float (total p).

(** *** The world a handler runs in *)

(** [user_directory] is how the service behind [USER_SERVICE_URL] answers
    a [GET] of a request target while the handler runs; [http_log] lists
    the targets [app.state.http] has sent; [orders] is [app.state.orders]
    in insertion order; [clock] is the UTC time; the [n]-th suspension of
    a coroutine lasts [latency n]; [driver_oid n] is the [n]-th identifier
    the MongoDB driver generates. *)
Record world : Type := mkWorld {
  user_directory : string -> Httpx.outcome;
  http_log : list string;
  orders : list order_doc;
  clock : N;
  latency : nat -> N;
  awaits : nat;
  driver_oid : nat -> Bson.ObjectId;
  generated : nat
}.

(** *** Handlers as state transformers that may raise *)

Definition M (A : Type) : Type := world -> result A * world.

Definition ret {A : Type} (a : A) : M A := fun w => (Ok a, w).

Definition raise {A : Type} (e : exn) : M A := fun w => (Raise e, w).

Definition bind {A B : Type} (c : M A) (k : A -> M B) : M B :=
  fun w =>
    match c w with
    | (Ok a, w') => k a w'
    | (Raise e, w') => (Raise e, w')
    end.

Notation "x <- c ;; k" := (bind c (fun x => k))
  (at level 61, c at next level, right associativity).

(** A suspension point: time passes. *)
Definition await : M unit :=
  fun w =>
    (Ok tt,
     mkWorld (user_directory w) (http_log w) (orders w)
             (clock w + latency w (awaits w))%N
             (latency w) (S (awaits w)) (driver_oid w) (generated w)).

(** [await app.state.http.get(target)]. *)
Definition http_get (target : string) : M Httpx.outcome :=
  fun w =>
    (Ok (user_directory w target),
     mkWorld (user_directory w) (http_log w ++ [target]) (orders w)
             (clock w + latency w (awaits w))%N
             (latency w) (S (awaits w)) (driver_oid w) (generated w)).

(** [resp.json()]. *)
Definition Response_json (resp : Httpx.Response) : M json :=
  match Httpx.json_body resp with
  | Some v => ret v
  | None => raise JSONDecodeError
  end.

(** [datetime.now(timezone.utc)]. *)
Definition datetime_now : M N := fun w => (Ok (clock w), w).

Definition has_id (oid : Bson.ObjectId) (d : order_doc) : bool :=
  N.eqb (_id d) oid.

(** [await orders.insert_one(doc)] for a document without ["_id"]: the
    driver generates one, and the collection refuses an identifier it
    already holds. *)
Definition insert_one (doc : Bson.ObjectId -> order_doc) : M Bson.ObjectId :=
  fun w =>
    let oid := driver_oid w (generated w) in
    let w' := mkWorld (user_directory w) (http_log w) (orders w)
                      (clock w + latency w (awaits w))%N
                      (latency w) (S (awaits w)) (driver_oid w)
                      (S (generated w)) in
    if existsb (has_id oid) (orders w) then (Raise DuplicateKeyError, w')
    else
      (Ok oid,
       mkWorld (user_directory w') (http_log w') (orders w' ++ [doc oid])
               (clock w') (latency w') (awaits w') (driver_oid w')
               (generated w')).

(** [await orders.find_one({"_id": oid})]. *)
Definition find_one (oid : Bson.ObjectId) : M (option order_doc) :=
  _ <- await ;;
  fun w => (Ok (find (has_id oid) (orders w)), w).

Definition _serialize_order (doc : order_doc) : OrderOut :=
  mkOrderOut (Bson.str (_id doc)) (doc_user_id doc) (doc_items doc)
             (doc_total doc) (doc_created_at doc).

(** *** The handlers *)

Definition _fetch_user (user_id : string) : M json :=
  r <- http_get ("/users/" ++ user_id) ;;
  match r with
  | Httpx.RequestError =>
      raise (HTTPException 503 "User service unavailable")
  | Httpx.Received resp =>
      if (Httpx.status_code resp =? 404)%Z then ret JNull
      else if negb (Httpx.status_code resp =? 200)%Z then
        raise (HTTPException 502 "User validation failed")
      else Response_json resp
  end.

Definition create_order (payload : OrderCreate) : M OrderOut :=
  user <- _fetch_user (user_id payload) ;;
  if is_None user then
    raise (HTTPException 400 "Cannot create order: user not found")
  else
    match Bson.ObjectId_of_str (user_id payload) with
    | None => raise (HTTPException 400 "Invalid user id")
    | Some _ =>
        now <- datetime_now ;;
        inserted_id <-
          insert_one (fun oid =>
            mkOrderDoc oid (user_id payload) (items payload)
                       (total payload) now) ;;
        created <- find_one inserted_id ;;
        match created with
        | Some doc => ret (_serialize_order doc)
        | None => raise TypeError
        end
    end.

Definition proxy_get_user (user_id : string) : M json :=
  user <- _fetch_user user_id ;;
  if is_None user then raise (HTTPException 404 "User not found")
  else ret user.




(** *** The routes *)

(** [POST /orders]: the body is validated against [OrderCreate] first,
    and [create_order] runs only on a body that passed. *)
Definition POST_orders (payload : OrderCreate) (w : world)
  : reply OrderOut * world :=
  if OrderCreate_ok payload then
    let (r, w') := create_order payload w in (Fastapi.respond 201 r, w')
  else (Fastapi.reject, w).


(** *** The outcomes of the User Validation Gate *)

Inductive Outcome : Type :=
| DependencyUnreachable
| NotFound
| DependencyMalfunction
| Found (user_record : json).

(** How a caller of [_fetch_user] reads its end: [None] is "no such
    user", any other value is the user, the 503 and the 502 name the two
    dependency failures.  Any other exception is none of the four. *)
Definition outcome_of (r : result json) : option Outcome :=
  match r with
  | Ok JNull => Some NotFound
  | Ok u => Some (Found u)
  | Raise (HTTPException st _) =>
      if (st =? 503)%Z then Some DependencyUnreachable
      else if (st =? 502)%Z then Some DependencyMalfunction
      else None
  | Raise _ => None
  end.

Definition validate (user_id : string) (w : world) : option Outcome :=
  outcome_of (fst (_fetch_user user_id w)).

End OrderService.

(* ================================================================== *)
(** ** The two services together *)

Module Deployment.

(** [_fetch_user] asks for [f"/users/{user_id}"]: the identifier is put
    into the text of the URL as it is.  The client reads that text as a
    URL reference, so the path stops at the first ['?'] (a query follows)
    or ['#'] (a fragment follows); the user-service matches the path
    against its route [/users/{user_id}]. *)
Fixpoint path_of (s : string) : string :=
  match s with
  | EmptyString => EmptyString
  | String c rest =>
      if (Ascii.eqb c "?" || Ascii.eqb c "#")%char then EmptyString
      else String c (path_of rest)
  end.

(** Letters, digits, ['-'] and ['_']: characters a URL path carries as
    they are. *)
Definition plain_char (c : ascii) : bool :=
  let n := N_of_ascii c in
  (((48 <=? n) && (n <=? 57)) || ((65 <=? n) && (n <=? 90))
   || ((97 <=? n) && (n <=? 122)) || (n =? 45) || (n =? 95))%N.

Fixpoint all_chars (f : ascii -> bool) (s : string) : bool :=
  match s with
  | EmptyString => true
  | String c rest => f c && all_chars f rest
  end.

(** The [user_id] the route [/users/{user_id}] of the user-service binds
    for the target ["/users/" ++ user_id], where this is settled by the
    above: a non-empty path segment of plain characters is bound as it
    was sent.  Segments with other characters (escapes, dots, slashes)
    are left open ([None]). *)
Definition path_param (user_id : string) : option string :=
  let seg := path_of user_id in
  if (1 <=? String.length seg)%nat && all_chars plain_char seg
  then Some seg else None.

(** [directory] is a user-service holding [users]: wherever the bound
    parameter is settled, the answer is that of [get_user]. *)
Definition serves (users : list UserService.user_doc)
  (directory : string -> Httpx.outcome) : Prop :=
  forall user_id seg,
    path_param user_id = Some seg ->
    directory ("/users/" ++ user_id)%string
    = Httpx.Received (UserService.GET_users_id users seg).

Fixpoint strip_prefix (p s : string) : option string :=
  match p, s with
  | EmptyString, _ => Some s
  | String a p', String b s' =>
      if Ascii.eqb a b then strip_prefix p' s' else None
  | String _ _, EmptyString => None
  end.

Definition not_found : Httpx.Response :=
  Httpx.mkResponse 404 (Some (JDict [("detail", JStr "Not Found")])).

(** One such directory: it answers 404 where no parameter is settled. *)
Definition user_service (users : list UserService.user_doc)
  (target : string) : Httpx.outcome :=
  match strip_prefix "/users/" target with
  | Some user_id =>
      match path_param user_id with
      | Some seg => Httpx.Received (UserService.GET_users_id users seg)
      | None => Httpx.Received not_found
      end
  | None => Httpx.Received not_found
  end.

End Deployment.

(* ================================================================== *)
(** ** Sample data *)

Module Sample.

Import OrderService.
#[local] Set Warnings "-inexact-float".

Definition ann_id : Bson.ObjectId := 0x507f1f77bcf86cd799439011%N.

Definition ann : UserService.user_doc :=
  UserService.mkUserDoc ann_id "Ann" "ann@x.com".

Definition users : list UserService.user_doc := [ann].

(** The body of the user-service's 200 for [ann]. *)
Definition ann_found : json :=
  UserService.to_json (UserService._serialize_user ann).

(** The identifier of [ann] followed by a query. *)
Definition ann_id_with_query : string := "507f1f77bcf86cd799439011?x=1".

Definition widget : OrderItem := mkOrderItem "WIDGET" 2.

(** A world at rest: no request sent yet, an empty [orders] collection,
    every suspension lasting a millisecond. *)
Definition world_of (directory : string -> Httpx.outcome) : world :=
  mkWorld directory [] [] 1700000000000000%N (fun _ => 1000%N) 0
          (fun n => (0x65a0000000000000000000aa + N.of_nat n)%N) 0.

Definition deployed : world := world_of (Deployment.user_service users).

Definition answering (resp : Httpx.Response) : world :=
  world_of (fun _ => Httpx.Received resp).

Definition unreachable : world := world_of (fun _ => Httpx.RequestError).

Definition ann_json : json :=
  JDict [("id", JStr "u1"); ("name", JStr "Ann"); ("email", JStr "ann@x.com")].

(** A directory that answers every lookup with 200 and [ann_json]. *)
Definition knows_u1 : world :=
  answering (Httpx.mkResponse 200 (Some ann_json)).

(** A directory that answers 200 with a body that is not JSON. *)
Definition garbled : world := answering (Httpx.mkResponse 200 None).

Definition order_for (uid : string) : OrderCreate :=
  mkOrderCreate uid [widget] 19.98%float.







End Sample.

(* ================================================================== *)
(** ** Vocabulary of the statements *)

Import OrderService.

(** The world once a request for [t] has been sent and answered. *)
Definition sent (t : string) (w : world) : world := snd (http_get t w).

(** The end of [_fetch_user] as a function of the directory's answer. *)
Definition gate_result (r : Httpx.outcome) : result json :=
  match r with
  | Httpx.RequestError => Raise (HTTPException 503 "User service unavailable")
  | Httpx.Received resp =>
      if (Httpx.status_code resp =? 404)%Z then Ok JNull
      else if negb (Httpx.status_code resp =? 200)%Z then
        Raise (HTTPException 502 "User validation failed")
      else match Httpx.json_body resp with
           | Some v => Ok v
           | None => Raise JSONDecodeError
           end
  end.

(** The four-way mapping in the words of the specification: the outcome
    an answer of the directory stands for. *)
Definition spec_stands_for (r : Httpx.outcome) (o : Outcome) : Prop :=
  match r with
  | Httpx.RequestError => o = DependencyUnreachable
  | Httpx.Received resp =>
      if (Httpx.status_code resp =? 404)%Z then o = NotFound
      else if (Httpx.status_code resp =? 200)%Z then exists u, o = Found u
      else o = DependencyMalfunction
  end.

(** "The mapping is exact": every lookup ends in one of the four outcomes,
    the one its answer stands for. *)
Definition spec_mapping_exact : Prop :=
  forall (user_id : string) (w : world),
    exists o,
      validate user_id w = Some o
      /\ spec_stands_for (user_directory w ("/users/" ++ user_id)) o.

(** A body the specification calls structurally invalid. *)
Definition structurally_invalid (p : OrderCreate) : Prop :=
  user_id p = ""
  \/ items p = []
  \/ (exists i, In i (items p) /\ (qty i < 1 \/ 1000 < qty i)%Z)
  \/ (exists i, In i (items p)
        /\ (String.length (sku i) < 1 \/ 64 < String.length (sku i))%nat)
  \/ PrimFloat.ltb 0%float (total p) = false.

(** The collection holds no document under the driver's next
    identifier. *)
Definition next_id_fresh (w : world) : Prop :=
  existsb (has_id (driver_oid w (generated w))) (orders w) = false.


(* ================================================================== *)
(** ** user-service: creating users *)

Module UserServiceWrites.

(** The body of [POST /users] once decoded, before validation. *)
Record UserCreate : Type := mkUserCreate {
  name : string;
  email : string
}.

(** The process state of the user-service: [app.state.users] in insertion
    order and the identifiers its MongoDB driver generates. *)
Record store : Type := mkStore {
  users : list UserService.user_doc;
  driver_oid : nat -> Bson.ObjectId;
  generated : nat
}.

(** How a handler of the user-service can fail: one of the exceptions
    above, or the [ValidationError] of pydantic when a model is built
    from a value a field refuses. *)
Inductive raised : Type :=
| Exn (e : exn)
| ValidationError.

Section WithEmailStr.

(** pydantic's [EmailStr] (the email-validator package, not part of the
    repository): [None] for a text that is no address, otherwise the
    address in the normal form the field keeps. *)
Variable EmailStr : string -> option string.

(** Validation of the body against [UserCreate]: the validated model
    holds the normalised address. *)
Definition UserCreate_validate (raw : UserCreate) : option UserCreate :=
  if (1 <=? String.length (name raw))%nat
     && (String.length (name raw) <=? 100)%nat
  then match EmailStr (email raw) with
       | Some e => Some (mkUserCreate (name raw) e)
       | None => None
       end
  else None.

(** [UserOut(id=str(doc["_id"]), name=doc["name"], email=doc["email"])]:
    building the model checks [email] against [EmailStr] again. *)
Definition _serialize_user (doc : UserService.user_doc)
  : raised + UserService.UserOut :=
  match EmailStr (UserService.email doc) with
  | Some e =>
      inr (UserService.mkUserOut (Bson.str (UserService._id doc))
                                 (UserService.name doc) e)
  | None => inl ValidationError
  end.

(** [await users.insert_one(doc)] for a document without ["_id"]. *)
Definition insert_one (doc : Bson.ObjectId -> UserService.user_doc)
  (st : store) : (raised + Bson.ObjectId) * store :=
  let oid := driver_oid st (generated st) in
  let st' := mkStore (users st) (driver_oid st) (S (generated st)) in
  if existsb (fun d => N.eqb (UserService._id d) oid) (users st)
  then (inl (Exn DuplicateKeyError), st')
  else (inr oid,
        mkStore (users st ++ [doc oid]) (driver_oid st) (S (generated st))).

Definition create_user (payload : UserCreate) (st : store)
  : (raised + UserService.UserOut) * store :=
  match
    insert_one (fun oid =>
      UserService.mkUserDoc oid (name payload) (email payload)) st
  with
  | (inl r, st') => (inl r, st')
  | (inr inserted_id, st') =>
      match UserService.find_one (users st') inserted_id with
      | Some created => (_serialize_user created, st')
      | None => (inl (Exn TypeError), st')
      end
  end.

Definition get_user (user_id : string) (st : store)
  : raised + UserService.UserOut :=
  match Bson.ObjectId_of_str user_id with
  | None => inl (Exn (HTTPException 400 "Invalid user id"))
  | Some oid =>
      match UserService.find_one (users st) oid with
      | None => inl (Exn (HTTPException 404 "User not found"))
      | Some doc => _serialize_user doc
      end
  end.

Definition respond (success : Z) (r : raised + UserService.UserOut)
  : reply UserService.UserOut :=
  match r with
  | inr u => mkReply success (Payload u)
  | inl (Exn (HTTPException st msg)) => mkReply st (Detail msg)
  | inl _ => mkReply 500 InternalServerError
  end.

(** [POST /users]. *)
Definition POST_users (raw : UserCreate) (st : store)
  : reply UserService.UserOut * store :=
  match UserCreate_validate raw with
  | None => (Fastapi.reject, st)
  | Some payload =>
      let (r, st') := create_user payload st in (respond 201 r, st')
  end.

(** [GET /users/{user_id}]. *)
Definition GET_users_id (user_id : string) (st : store)
  : reply UserService.UserOut :=
  respond 200 (get_user user_id st).

End WithEmailStr.

End UserServiceWrites.

(* ================================================================== *)
(** ** order-service: the user proxy *)

Module OrderServiceProxy.

(** The order-service's own [UserCreate]: [email] is a plain [str]. *)
Record UserCreate : Type := mkUserCreate {
  name : string;
  email : string
}.

Record UserOut : Type := mkUserOut {
  id : string;
  out_name : string;
  out_email : string
}.

Definition UserCreate_ok (raw : UserCreate) : bool :=
  (1 <=? String.length (name raw))%nat
  && (String.length (name raw) <=? 100)%nat.

(** [payload.model_dump()]. *)
Definition model_dump (payload : UserCreate) : json :=
  JDict [("name", JStr (name payload)); ("email", JStr (email payload))].

(** An [httpx.Response] to a [POST], with its body as text. *)
Record Response : Type := mkResponse {
  status_code : Z;
  text : string;
  json_body : option json
}.

Inductive outcome : Type :=
| RequestError
| Received (resp : Response).

(** [proxy_create_user]; [post] is how the service behind
    [USER_SERVICE_URL] ends [await app.state.http.post(path, json=...)]. *)
Definition proxy_create_user (post : string -> json -> outcome)
  (payload : UserCreate) : result json :=
  match post "/users" (model_dump payload) with
  | RequestError => Raise (HTTPException 503 "User service unavailable")
  | Received resp =>
      if negb ((status_code resp =? 200)%Z || (status_code resp =? 201)%Z)
      then Raise (HTTPException (status_code resp) (text resp))
      else match json_body resp with
           | Some v => Ok v
           | None => Raise JSONDecodeError
           end
  end.

(** The value of a key in a decoded JSON object. *)
Fixpoint dict_get (k : string) (kv : list (string * json)) : option json :=
  match kv with
  | [] => None
  | (k', v) :: rest => if String.eqb k' k then Some v else dict_get k rest
  end.

Definition get_str (k : string) (kv : list (string * json)) : option string :=
  match dict_get k kv with
  | Some (JStr s) => Some s
  | _ => None
  end.

(** [response_model=UserOut] applied to what a handler returned: an
    object with the three members as strings, other members dropped. *)
Definition UserOut_validate (v : json) : option UserOut :=
  match v with
  | JDict kv =>
      match get_str "id" kv, get_str "name" kv, get_str "email" kv with
      | Some i, Some n, Some e => Some (mkUserOut i n e)
      | _, _, _ => None
      end
  | _ => None
  end.

Definition respond (success : Z) (r : result json) : reply UserOut :=
  match r with
  | Ok v =>
      match UserOut_validate v with
      | Some u => mkReply success (Payload u)
      | None => mkReply 500 InternalServerError
      end
  | Raise (HTTPException st msg) => mkReply st (Detail msg)
  | Raise _ => mkReply 500 InternalServerError
  end.

(** [POST /users] of the order-service. *)
Definition POST_users (post : string -> json -> outcome) (raw : UserCreate)
  : reply UserOut :=
  if UserCreate_ok raw then respond 201 (proxy_create_user post raw)
  else Fastapi.reject.

(** [GET /users/{user_id}] of the order-service. *)
Definition GET_users_id (user_id : string) (w : OrderService.world)
  : reply UserOut * OrderService.world :=
  let (r, w') := OrderService.proxy_get_user user_id w in (respond 200 r, w').

End OrderServiceProxy.

(* ================================================================== *)
(** ** Vocabulary of the further properties *)

(** The write of [create_order] once [now] has been read: insert, read
    back, serialise. *)
Definition write_order (p : OrderCreate) (now : N) : M OrderOut :=
  inserted_id <- insert_one (fun oid =>
    mkOrderDoc oid (user_id p) (items p) (total p) now) ;;
  created <- find_one inserted_id ;;
  match created with
  | Some doc => ret (_serialize_order doc)
  | None => raise TypeError
  end.





(** A stored user as [create_user] writes them: a name of 1 to 100
    characters and an address that came out of [EmailStr]. *)
Definition user_doc_ok (EmailStr : string -> option string)
  (d : UserService.user_doc) : Prop :=
  (1 <= String.length (UserService.name d) <= 100)%nat
  /\ exists raw, EmailStr raw = Some (UserService.email d).

Record users_ok (EmailStr : string -> option string)
  (st : UserServiceWrites.store) : Prop := mkUsersOk {
  user_ids_unique :
    NoDup (map UserService._id (UserServiceWrites.users st));
  user_docs_valid :
    Forall (user_doc_ok EmailStr) (UserServiceWrites.users st)
}.

(** [EmailStr] accepts its own normal forms and leaves them as they
    are. *)
Definition stable (EmailStr : string -> option string) : Prop :=
  forall a b, EmailStr a = Some b -> EmailStr b = Some b.

(** The store of the user-service after [POST /users] with [raw]. *)
Definition register (EmailStr : string -> option string)
  (st : UserServiceWrites.store) (raw : UserServiceWrites.UserCreate)
  : UserServiceWrites.store :=
  snd (UserServiceWrites.POST_users EmailStr raw st).

(** The body the order-service sends for [payload], as the user-service
    decodes it. *)
Definition forwarded (payload : OrderServiceProxy.UserCreate)
  : UserServiceWrites.UserCreate :=
  UserServiceWrites.mkUserCreate (OrderServiceProxy.name payload)
                                 (OrderServiceProxy.email payload).

(** A reply of the user-service's [POST /users] as the order-service
    receives it; [text] is the body as sent. *)
Definition carried (r : reply UserService.UserOut) (text : string)
  : OrderServiceProxy.Response :=
  OrderServiceProxy.mkResponse (status r) text
    (match content r with
     | Payload u => Some (UserService.to_json u)
     | Detail msg => Some (JDict [("detail", JStr msg)])
     | ValidationErrors => Some (JDict [("detail", JList [])])
     | InternalServerError => None
     end).

Module Sample2.

(** A stand-in for [EmailStr] in examples: a text with an ['@'] is an
    address and is kept as it is. *)
Fixpoint has_at (s : string) : bool :=
  match s with
  | EmptyString => false
  | String c rest => Ascii.eqb c "@" || has_at rest
  end.

Definition EmailStr (s : string) : option string :=
  if has_at s then Some s else None.

(** A user-service with no user yet. *)
Definition empty_store : UserServiceWrites.store :=
  UserServiceWrites.mkStore [] (fun n => (Sample.ann_id + N.of_nat n)%N) 0.

Definition ann_body : UserServiceWrites.UserCreate :=
  UserServiceWrites.mkUserCreate "Ann" "ann@x.com".

Definition ann_out : UserService.UserOut :=
  UserService.mkUserOut "507f1f77bcf86cd799439011" "Ann" "ann@x.com".

Definition no_address : UserServiceWrites.UserCreate :=
  UserServiceWrites.mkUserCreate "Bob" "bob".

Definition bob_body : OrderServiceProxy.UserCreate :=
  OrderServiceProxy.mkUserCreate "Bob" "bob".

(** The user-service behind the proxy: it answers the one [POST] a
    handler sends from the store [st]. *)
Definition user_service_post (st : UserServiceWrites.store)
  (path : string) (body : json) : OrderServiceProxy.outcome :=
  match body with
  | JDict [("name", JStr n); ("email", JStr e)] =>
      OrderServiceProxy.Received
        (carried (fst (UserServiceWrites.POST_users EmailStr
                         (UserServiceWrites.mkUserCreate n e) st)) "")
  | _ => OrderServiceProxy.RequestError
  end.

End Sample2.

(* ================================================================== *)
(** ** The User Validation Gate *)

Section Gate.

Variable user_id : string.
Variable w : world.

Let target : string := "/users/" ++ user_id.

Lemma fetch_user_eq :
  _fetch_user user_id w
  = (gate_result (user_directory w target), sent target w).
Proof.
  unfold _fetch_user, bind, sent, http_get, target, gate_result.
  cbv beta iota.
  destruct (user_directory w _) as [|resp]; [reflexivity|].
  destruct (Httpx.status_code resp =? 404)%Z; [reflexivity|].
  destruct (Httpx.status_code resp =? 200)%Z; [|reflexivity].
  unfold Response_json. destruct (Httpx.json_body resp); reflexivity.
Qed.

Lemma validate_eq :
  validate user_id w = outcome_of (gate_result (user_directory w target)).
Proof. unfold validate. now rewrite fetch_user_eq. Qed.

End Gate.

Lemma sent_orders (t : string) (w : world) : orders (sent t w) = orders w.
Proof. reflexivity. Qed.

Lemma sent_log (t : string) (w : world) :
  http_log (sent t w) = http_log w ++ [t].
Proof. reflexivity. Qed.

Lemma sent_directory (t : string) (w : world) :
  user_directory (sent t w) = user_directory w.
Proof. reflexivity. Qed.

(** C1 (as amended).  The helper maps the directory's answer to the four
    outcomes as follows, and to nothing else: a failed request is
    DependencyUnreachable (503); a 404 is NotFound; a status other than
    404 and 200 is DependencyMalfunction (502); a 200 whose body is a JSON
    value other than null is Found with that value.  A 200 is not looked
    at any further: a null body is returned as [None], that is NotFound,
    and a body that is not JSON ends the helper with a decoding error,
    which is none of the four outcomes. *)
Theorem gate_classification (user_id : string) (w : world) :
  let answer := user_directory w ("/users/" ++ user_id) in
  (answer = Httpx.RequestError ->
     fst (_fetch_user user_id w)
       = Raise (HTTPException 503 "User service unavailable")
     /\ validate user_id w = Some DependencyUnreachable)
  /\ (forall resp, answer = Httpx.Received resp ->
        Httpx.status_code resp = 404%Z ->
        fst (_fetch_user user_id w) = Ok JNull
        /\ validate user_id w = Some NotFound)
  /\ (forall resp, answer = Httpx.Received resp ->
        Httpx.status_code resp <> 404%Z ->
        Httpx.status_code resp <> 200%Z ->
        fst (_fetch_user user_id w)
          = Raise (HTTPException 502 "User validation failed")
        /\ validate user_id w = Some DependencyMalfunction)
  /\ (forall resp u, answer = Httpx.Received resp ->
        Httpx.status_code resp = 200%Z ->
        Httpx.json_body resp = Some u -> u <> JNull ->
        fst (_fetch_user user_id w) = Ok u
        /\ validate user_id w = Some (Found u))
  /\ (forall resp, answer = Httpx.Received resp ->
        Httpx.status_code resp = 200%Z ->
        Httpx.json_body resp = Some JNull ->
        validate user_id w = Some NotFound)
  /\ (forall resp, answer = Httpx.Received resp ->
        Httpx.status_code resp = 200%Z ->
        Httpx.json_body resp = None ->
        fst (_fetch_user user_id w) = Raise JSONDecodeError
        /\ validate user_id w = None).
Proof.
  intros answer. subst answer.
  rewrite validate_eq, fetch_user_eq. cbn [fst].
  unfold gate_result.
  split; [intros ->; split; reflexivity|].
  split; [intros resp -> ->; split; reflexivity|].
  split.
  { intros resp -> S1 S2. apply Z.eqb_neq in S1, S2. rewrite S1, S2.
    split; reflexivity. }
  split.
  { intros resp u -> -> -> Hu. cbn. split; [reflexivity|].
    destruct u; congruence. }
  split; [intros resp -> -> ->; reflexivity|].
  intros resp -> -> ->. split; reflexivity.
Qed.

(** C1, witness: the answer [200 {"id": "u1", ...}] is Found with that
    record. *)
Lemma gate_classification_witness :
  validate "u1" Sample.knows_u1 = Some (Found Sample.ann_json).
Proof.
  destruct (gate_classification "u1" Sample.knows_u1) as (_ & _ & _ & H & _).
  apply (H (Httpx.mkResponse 200 (Some Sample.ann_json)) Sample.ann_json);
    [reflexivity | reflexivity | reflexivity | discriminate].
Defined.

(** C1, counterexample: the mapping is not exact.  To the answer 200 with
    a body that is not JSON the helper gives none of the four outcomes. *)
Lemma gate_mapping_not_exact : ~ spec_mapping_exact.
Proof.
  intros H.
  destruct (H "u1" Sample.garbled)
    as (o & Ho & _).
  vm_compute in Ho. discriminate Ho.
Qed.

(** The answer 200 with the body [null] is read as NotFound, the outcome
    of a 404. *)
Lemma gate_null_body_is_not_found :
  validate "u1" (Sample.answering (Httpx.mkResponse 200 (Some JNull)))
  = Some NotFound.
Proof. reflexivity. Qed.

(** C9.  The Gate is a function of the directory's answer alone: from any
    two worlds in which the directory answers the lookup alike it ends
    alike, and each call sends exactly one request (nothing is answered
    from an earlier call, nothing is sent twice).  In particular a lookup
    that found a user finds the same record when it is run again. *)
Theorem gate_idempotent (user_id : string) (u : json) (w : world) :
  validate user_id w = Some (Found u) ->
  let (r1, w1) := _fetch_user user_id w in
  let (r2, w2) := _fetch_user user_id w1 in
  r1 = Ok u /\ r2 = Ok u
  /\ validate user_id w1 = Some (Found u)
  /\ http_log w1 = http_log w ++ [("/users/" ++ user_id)%string]
  /\ http_log w2 = http_log w ++ [("/users/" ++ user_id)%string; ("/users/" ++ user_id)%string]
  /\ user_directory w2 = user_directory w
  /\ forall w', user_directory w' (("/users/" ++ user_id)%string)
                = user_directory w (("/users/" ++ user_id)%string) ->
                fst (_fetch_user user_id w') = Ok u
                /\ http_log (snd (_fetch_user user_id w'))
                   = http_log w' ++ [("/users/" ++ user_id)%string].
Proof.
  intros Hv.
  assert (Hr : gate_result (user_directory w (("/users/" ++ user_id)%string)) = Ok u).
  { rewrite validate_eq in Hv.
    destruct (gate_result _) as [v|e]; cbn in Hv.
    - destruct v; congruence.
    - destruct e as [st d| | |]; try discriminate.
      destruct (st =? 503)%Z; [discriminate|].
      destruct (st =? 502)%Z; discriminate. }
  rewrite fetch_user_eq; cbv beta iota.
  rewrite fetch_user_eq; cbv beta iota.
  rewrite validate_eq, !sent_directory, !sent_log, Hr, <- app_assoc.
  assert (Hu : outcome_of (Ok u) = Some (Found u)).
  { rewrite validate_eq, Hr in Hv. exact Hv. }
  do 2 (split; [reflexivity|]).
  split; [exact Hu|].
  do 3 (split; [reflexivity|]).
  intros w' Hw'. rewrite fetch_user_eq, Hw', Hr. split; reflexivity.
Qed.

(** C9, witness: two lookups of ["u1"] in a directory that knows it. *)
Lemma gate_idempotent_witness :
  fst (_fetch_user "u1" Sample.knows_u1) = Ok Sample.ann_json
  /\ fst (_fetch_user "u1" (snd (_fetch_user "u1" Sample.knows_u1)))
     = Ok Sample.ann_json
  /\ http_log (snd (_fetch_user "u1" (snd (_fetch_user "u1" Sample.knows_u1))))
     = ["/users/u1"; "/users/u1"].
Proof.
  pose proof (gate_idempotent "u1" Sample.ann_json Sample.knows_u1 eq_refl)
    as H.
  destruct (_fetch_user "u1" Sample.knows_u1) as [r1 w1].
  cbn [fst snd].
  destruct (_fetch_user "u1" w1) as [r2 w2].
  cbn [fst snd].
  destruct H as (H1 & H2 & _ & _ & H5 & _).
  repeat split; assumption.
Defined.

(* ================================================================== *)
(** ** The Order Admission Workflow *)

Lemma forallb_false {A : Type} (f : A -> bool) (l : list A) :
  forallb f l = false <-> exists x, In x l /\ f x = false.
Proof.
  induction l as [|a l IH]; cbn.
  - split; [discriminate|]. intros (x & [] & _).
  - rewrite andb_false_iff, IH. split.
    + intros [Ha|(x & Hx & Hf)]; [exists a|exists x]; auto.
    + intros (x & [<-|Hx] & Hf); [left|right; exists x]; auto.
Qed.

Lemma OrderItem_ok_false (i : OrderItem) :
  OrderItem_ok i = false <->
  ((qty i < 1 \/ 1000 < qty i)%Z
   \/ (String.length (sku i) < 1 \/ 64 < String.length (sku i))%nat).
Proof.
  unfold OrderItem_ok.
  rewrite !andb_false_iff, !Nat.leb_gt, !Z.leb_gt. tauto.
Qed.

(** The [Field] constraints reject exactly the bodies the specification
    lists. *)
Lemma structurally_invalid_iff (p : OrderCreate) :
  structurally_invalid p <-> OrderCreate_ok p = false.
Proof.
  unfold structurally_invalid, OrderCreate_ok.
  rewrite !andb_false_iff, forallb_false, !Nat.leb_gt.
  split.
  - intros [H|[H|[(i & Hi & Hq)|[(i & Hi & Hs)|H]]]].
    + left; left; left. rewrite H. cbn. lia.
    + left; left; right. rewrite H. cbn. lia.
    + left; right. exists i. split; [exact Hi|].
      apply OrderItem_ok_false. now left.
    + left; right. exists i. split; [exact Hi|].
      apply OrderItem_ok_false. now right.
    + now right.
  - intros [[[H|H]|(i & Hi & Hf)]|H].
    + left. destruct (user_id p); [reflexivity|cbn in H; lia].
    + right; left. destruct (items p); [reflexivity|cbn in H; lia].
    + apply OrderItem_ok_false in Hf. destruct Hf as [Hq|Hs].
      * right; right; left. now exists i.
      * right; right; right; left. now exists i.
    + now do 4 right.
Qed.

(** [create_order], branch by branch. *)
Lemma create_order_eq (p : OrderCreate) (w : world) :
  create_order p w =
  let w1 := sent ("/users/" ++ user_id p) w in
  match gate_result (user_directory w ("/users/" ++ user_id p)) with
  | Raise e => (Raise e, w1)
  | Ok user =>
      if is_None user then
        (Raise (HTTPException 400 "Cannot create order: user not found"), w1)
      else
        match Bson.ObjectId_of_str (user_id p) with
        | None => (Raise (HTTPException 400 "Invalid user id"), w1)
        | Some _ =>
            (inserted_id <- insert_one (fun oid =>
               mkOrderDoc oid (user_id p) (items p) (total p) (clock w1)) ;;
             created <- find_one inserted_id ;;
             match created with
             | Some doc => ret (_serialize_order doc)
             | None => raise TypeError
             end) w1
        end
  end.
Proof.
  unfold create_order at 1. unfold bind at 1. rewrite fetch_user_eq.
  cbv zeta. destruct (gate_result _) as [user|e]; [|reflexivity].
  destruct (is_None user); [reflexivity|].
  destruct (Bson.ObjectId_of_str (user_id p)); reflexivity.
Qed.

(** Without a user from the Gate nothing is written. *)
Lemma create_order_not_found_keeps_orders (p : OrderCreate) (w : world) :
  (forall u, validate (user_id p) w <> Some (Found u)) ->
  orders (snd (create_order p w)) = orders w.
Proof.
  intros Hn. rewrite create_order_eq. cbv zeta.
  pose proof (validate_eq (user_id p) w) as Hv.
  destruct (gate_result _) as [user|e]; [|reflexivity].
  destruct user; try reflexivity; exfalso; eapply Hn; rewrite Hv; reflexivity.
Qed.

Lemma POST_orders_ok (p : OrderCreate) (w : world) :
  OrderCreate_ok p = true ->
  POST_orders p w
  = (Fastapi.respond 201 (fst (create_order p w)), snd (create_order p w)).
Proof.
  intros Hok. unfold POST_orders. rewrite Hok.
  now destruct (create_order p w).
Qed.

Lemma POST_orders_rejected (p : OrderCreate) (w : world) :
  OrderCreate_ok p = false -> POST_orders p w = (Fastapi.reject, w).
Proof. intros Hok. unfold POST_orders. now rewrite Hok. Qed.

(** C2.  Whenever the Gate did not return Found, [POST /orders] leaves
    the [orders] collection as it was; and for a body that passed
    validation the reply is the error of the Gate's outcome: 503 for
    DependencyUnreachable, 400 "user not found" for NotFound, 502 for
    DependencyMalfunction. *)
Theorem order_persisted_only_if_found (p : OrderCreate) (w : world) :
  (forall u, validate (user_id p) w <> Some (Found u)) ->
  orders (snd (POST_orders p w)) = orders w
  /\ (OrderCreate_ok p = true ->
      match validate (user_id p) w with
      | Some DependencyUnreachable =>
          fst (POST_orders p w)
          = mkReply 503 (Detail "User service unavailable")
      | Some NotFound =>
          fst (POST_orders p w)
          = mkReply 400 (Detail "Cannot create order: user not found")
      | Some DependencyMalfunction =>
          fst (POST_orders p w)
          = mkReply 502 (Detail "User validation failed")
      | Some (Found _) => False
      | None => fst (POST_orders p w) = mkReply 500 InternalServerError
      end).
Proof.
  intros Hn. split.
  - destruct (OrderCreate_ok p) eqn:Hok.
    + rewrite POST_orders_ok by exact Hok. cbn [snd].
      now apply create_order_not_found_keeps_orders.
    + now rewrite POST_orders_rejected.
  - intros Hok. rewrite POST_orders_ok by exact Hok. cbn [fst].
    rewrite create_order_eq. cbv zeta.
    pose proof (validate_eq (user_id p) w) as Hv.
    destruct (gate_result (user_directory w ("/users/" ++ user_id p)))
      as [user|e] eqn:Hg.
    + destruct user; rewrite Hv; cbn; try reflexivity;
        eapply Hn; rewrite Hv; reflexivity.
    + unfold gate_result in Hg.
      destruct (user_directory w ("/users/" ++ user_id p)) as [|resp].
      * injection Hg as <-. rewrite Hv. reflexivity.
      * destruct (Httpx.status_code resp =? 404)%Z; [discriminate|].
        destruct (Httpx.status_code resp =? 200)%Z; cbn in Hg.
        -- destruct (Httpx.json_body resp); [discriminate|].
           injection Hg as <-. rewrite Hv. reflexivity.
        -- injection Hg as <-. rewrite Hv. reflexivity.
Qed.

(** C2, witness: the directory cannot be reached. *)
Lemma order_persisted_only_if_found_witness :
  orders (snd (POST_orders (Sample.order_for "u1") Sample.unreachable)) = []
  /\ fst (POST_orders (Sample.order_for "u1") Sample.unreachable)
     = mkReply 503 (Detail "User service unavailable").
Proof.
  assert (Hn : forall u, validate "u1" Sample.unreachable <> Some (Found u))
    by (intros u; discriminate).
  destruct (order_persisted_only_if_found
              (Sample.order_for "u1") Sample.unreachable Hn) as [H1 H2].
  split; [exact H1 | exact (H2 eq_refl)].
Defined.






(** C6.  When the User Directory answers 404 for the user of a body that
    passed validation, the reply is 400 "Cannot create order: user not
    found", nothing is written, and no structurally invalid body is ever
    answered with that content. *)
Theorem unknown_user_rejected (p : OrderCreate) (w : world)
  (resp : Httpx.Response) :
  OrderCreate_ok p = true ->
  user_directory w ("/users/" ++ user_id p) = Httpx.Received resp ->
  Httpx.status_code resp = 404%Z ->
  fst (POST_orders p w)
  = mkReply 400 (Detail "Cannot create order: user not found")
  /\ orders (snd (POST_orders p w)) = orders w
  /\ forall q w',
       structurally_invalid q ->
       content (fst (POST_orders q w')) <> content (fst (POST_orders p w)).
Proof.
  intros Hok Hd Hs.
  assert (Hr : POST_orders p w
               = (mkReply 400 (Detail "Cannot create order: user not found"),
                  sent ("/users/" ++ user_id p) w)).
  { rewrite POST_orders_ok by exact Hok. rewrite create_order_eq.
    cbv zeta. rewrite Hd. cbn. rewrite Hs. reflexivity. }
  rewrite Hr. cbn [fst snd content]. repeat split.
  intros q w' Hq. apply structurally_invalid_iff in Hq.
  rewrite POST_orders_rejected by exact Hq. discriminate.
Qed.

(** C6, witness: a well-formed identifier the user-service does not
    hold. *)
Lemma unknown_user_rejected_witness :
  fst (POST_orders (Sample.order_for "507f1f77bcf86cd799439012")
                   Sample.deployed)
  = mkReply 400 (Detail "Cannot create order: user not found").
Proof.
  apply (unknown_user_rejected
           (Sample.order_for "507f1f77bcf86cd799439012") Sample.deployed
           (UserService.GET_users_id Sample.users "507f1f77bcf86cd799439012"));
    reflexivity.
Defined.

Lemma find_appended {A : Type} (f : A -> bool) (l : list A) (d : A) :
  existsb f l = false -> f d = true -> find f (l ++ [d]) = Some d.
Proof.
  intros Hl Hd. induction l as [|a l IH]; cbn in *.
  - now rewrite Hd.
  - apply orb_false_iff in Hl. destruct Hl as [Ha Hl].
    rewrite Ha. now apply IH.
Qed.





(* ================================================================== *)
(** ** Order Listing *)









(* ================================================================== *)
(** ** The identifier-shape check, and the user-service as the directory *)

(** The write of [create_order] does not end in an [HTTPException]. *)
Lemma write_raises_no_HTTPException (p : OrderCreate) (w1 : world)
  (st : Z) (msg : string) :
  fst ((inserted_id <- insert_one (fun oid =>
          mkOrderDoc oid (user_id p) (items p) (total p) (clock w1)) ;;
        created <- find_one inserted_id ;;
        match created with
        | Some doc => ret (_serialize_order doc)
        | None => raise TypeError
        end) w1) <> Raise (HTTPException st msg).
Proof.
  unfold bind, insert_one, find_one, bind, await. cbn.
  destruct (existsb _ (orders w1)); cbn; [discriminate|].
  destruct (find _ _); cbn; discriminate.
Qed.

(** When the 400 "Invalid user id" of [create_order] is raised: exactly
    when the Gate returned a user for an identifier that is not 24
    hexadecimal digits. *)
Lemma invalid_user_id_iff (p : OrderCreate) (w : world) :
  fst (create_order p w) = Raise (HTTPException 400 "Invalid user id")
  <-> (exists u, validate (user_id p) w = Some (Found u))
      /\ Bson.ObjectId_of_str (user_id p) = None.
Proof.
  rewrite create_order_eq, validate_eq. cbv zeta.
  destruct (gate_result _) as [user|e] eqn:Hg.
  - destruct (is_None user) eqn:Hn.
    + destruct user; try discriminate. cbn.
      split; [discriminate | intros [[u Hu] _]; discriminate].
    + destruct (Bson.ObjectId_of_str (user_id p)) eqn:Hid.
      * split; [|intros [_ H]; discriminate].
        intros H. now apply write_raises_no_HTTPException in H.
      * cbn [fst]. split; [|reflexivity].
        intros _. split; [|reflexivity].
        exists user. destruct user; try reflexivity; discriminate.
  - cbn [fst]. split.
    + intros H. injection H as ->. exfalso.
      unfold gate_result in Hg.
      destruct (user_directory w _) as [|resp]; [discriminate|].
      destruct (Httpx.status_code resp =? 404)%Z; [discriminate|].
      destruct (Httpx.status_code resp =? 200)%Z; cbn in Hg;
        [destruct (Httpx.json_body resp)|]; discriminate.
    + intros [[u Hu] _]. destruct e as [st d| | |]; cbn in Hu;
        try discriminate.
      destruct (st =? 503)%Z; [discriminate|].
      destruct (st =? 502)%Z; discriminate.
Qed.


Lemma strip_users_prefix (user_id : string) :
  Deployment.strip_prefix "/users/" ("/users/" ++ user_id) = Some user_id.
Proof. reflexivity. Qed.

(** The directory [Deployment.user_service] is a user-service. *)
Lemma user_service_serves (users : list UserService.user_doc) :
  Deployment.serves users (Deployment.user_service users).
Proof.
  intros user_id seg H. unfold Deployment.user_service.
  rewrite strip_users_prefix, H. reflexivity.
Qed.

(** What the Gate makes of the user-service's answer for a parameter. *)
Lemma gate_result_of_get_user (users : list UserService.user_doc)
  (seg : string) :
  gate_result (Httpx.Received (UserService.GET_users_id users seg))
  = match Bson.ObjectId_of_str seg with
    | None => Raise (HTTPException 502 "User validation failed")
    | Some oid =>
        match UserService.find_one users oid with
        | None => Ok JNull
        | Some doc =>
            Ok (UserService.to_json (UserService._serialize_user doc))
        end
    end.
Proof.
  unfold UserService.GET_users_id, UserService.get_user.
  destruct (Bson.ObjectId_of_str seg) as [oid|]; [|reflexivity].
  destruct (UserService.find_one users oid); reflexivity.
Qed.

Lemma gate_result_raises (r : Httpx.outcome) (e : exn) :
  gate_result r = Raise e ->
  e = HTTPException 503 "User service unavailable"
  \/ e = HTTPException 502 "User validation failed"
  \/ e = JSONDecodeError.
Proof.
  unfold gate_result. destruct r as [|resp].
  - intros [= <-]. now left.
  - destruct (Httpx.status_code resp =? 404)%Z; [discriminate|].
    destruct (Httpx.status_code resp =? 200)%Z; cbn.
    + destruct (Httpx.json_body resp); [discriminate|].
      intros [= <-]. now right; right.
    + intros [= <-]. now right; left.
Qed.





Lemma respond_invalid_user_id (r : result OrderOut) :
  Fastapi.respond 201 r = mkReply 400 (Detail "Invalid user id")
  -> r = Raise (HTTPException 400 "Invalid user id").
Proof.
  destruct r as [out|e]; cbn; [discriminate|].
  destruct e; cbn; try discriminate. now intros [= -> ->].
Qed.

(** C10 (as amended).  With the user-service as the directory and a user
    identifier of letters, digits, ['-'] and ['_'], which reaches
    [get_user] as it is, a user returned by the Gate means the identifier
    is 24 hexadecimal digits; so the 400 "Invalid user id" of
    [create_order] is never raised, and [POST /orders] never answers with
    it. *)
Theorem shape_check_passes_for_plain_id (users : list UserService.user_doc)
  (p : OrderCreate) (w : world) :
  Deployment.serves users (user_directory w) ->
  Deployment.path_param (user_id p) = Some (user_id p) ->
  (forall u, validate (user_id p) w = Some (Found u) ->
             exists oid, Bson.ObjectId_of_str (user_id p) = Some oid)
  /\ fst (create_order p w) <> Raise (HTTPException 400 "Invalid user id")
  /\ fst (POST_orders p w) <> mkReply 400 (Detail "Invalid user id").
Proof.
  intros Hs Hplain.
  assert (Hfound : forall u, validate (user_id p) w = Some (Found u) ->
                     exists oid, Bson.ObjectId_of_str (user_id p) = Some oid).
  { intros u. rewrite validate_eq, (Hs _ _ Hplain), gate_result_of_get_user.
    destruct (Bson.ObjectId_of_str (user_id p)) as [oid|];
      [intros _; now exists oid | discriminate]. }
  assert (Hraise : fst (create_order p w)
                   <> Raise (HTTPException 400 "Invalid user id")).
  { intros H. apply invalid_user_id_iff in H. destruct H as [[u Hu] Hid].
    destruct (Hfound u Hu) as [oid Hoid]. congruence. }
  split; [exact Hfound|]. split; [exact Hraise|].
  destruct (OrderCreate_ok p) eqn:Hok.
  - rewrite POST_orders_ok by exact Hok. cbn [fst].
    intros H. now apply respond_invalid_user_id in H.
  - rewrite POST_orders_rejected by exact Hok. discriminate.
Qed.

(** C10, witness: an order for a user the user-service holds. *)
Lemma shape_check_passes_for_plain_id_witness :
  fst (POST_orders (Sample.order_for "507f1f77bcf86cd799439011")
                   Sample.deployed)
  <> mkReply 400 (Detail "Invalid user id").
Proof.
  apply (shape_check_passes_for_plain_id Sample.users
           (Sample.order_for "507f1f77bcf86cd799439011") Sample.deployed
           (user_service_serves Sample.users) eq_refl).
Defined.

(** C10, counterexample: the check after the Gate fails.  The directory
    is the user-service, the Gate returns the user whose identifier stands
    before the ['?'], and [ObjectId] refuses the identifier as a whole:
    the reply is 400 "Invalid user id". *)
Lemma shape_check_reached :
  Deployment.serves Sample.users (user_directory Sample.deployed)
  /\ OrderCreate_ok (Sample.order_for Sample.ann_id_with_query) = true
  /\ validate Sample.ann_id_with_query Sample.deployed
     = Some (Found Sample.ann_found)
  /\ fst (POST_orders (Sample.order_for Sample.ann_id_with_query)
                      Sample.deployed)
     = mkReply 400 (Detail "Invalid user id").
Proof.
  split; [apply user_service_serves|].
  split; [reflexivity|]. split; reflexivity.
Qed.

(* ================================================================== *)
(** ** Further properties of the handlers *)






(** X5.  [GET /users/{user_id}] of the order-service hands on what the
    Gate returns, and answers 404 "User not found" where the Gate
    returns no user. *)
Theorem proxy_get_user_answers (user_id : string) (w : world) :
  fst (proxy_get_user user_id w)
  = match fst (_fetch_user user_id w) with
    | Ok JNull => Raise (HTTPException 404 "User not found")
    | r => r
    end.
Proof.
  unfold proxy_get_user, bind.
  destruct (_fetch_user user_id w) as [[user|e] w1]; cbn [fst];
    [|reflexivity].
  destruct user; reflexivity.
Qed.

(* ================================================================== *)
(** ** Object identifiers as text *)

Lemma hex_digit_hex_char (d : N) :
  (d < 16)%N -> Bson.hex_digit (Bson.hex_char d) = Some d.
Proof.
  intros H.
  assert (Hd : In d [0; 1; 2; 3; 4; 5; 6; 7; 8; 9; 10; 11; 12; 13; 14; 15]%N).
  { cbn. lia. }
  cbn in Hd.
  repeat (destruct Hd as [<-|Hd]; [reflexivity|]). destruct Hd.
Qed.

Lemma string_app_assoc (s t u : string) :
  ((s ++ t) ++ u = s ++ (t ++ u))%string.
Proof. induction s as [|c s IH]; cbn; [reflexivity | now rewrite IH]. Qed.

Lemma hex_digits_acc (n : nat) (v : N) (acc : string) :
  Bson.hex_digits n v acc = (Bson.hex_digits n v "" ++ acc)%string.
Proof.
  revert v acc. induction n as [|n IH]; intros v acc; cbn; [reflexivity|].
  rewrite (IH _ (String _ acc)), (IH _ (String _ "")).
  now rewrite string_app_assoc.
Qed.

Lemma hex_digits_length (n : nat) (v : N) (acc : string) :
  String.length (Bson.hex_digits n v acc) = (n + String.length acc)%nat.
Proof.
  revert v acc. induction n as [|n IH]; intros v acc; cbn; [reflexivity|].
  rewrite IH. cbn. lia.
Qed.

Lemma fromhex_app (s t : string) (acc : N) :
  Bson.fromhex (s ++ t) acc
  = match Bson.fromhex s acc with
    | Some a => Bson.fromhex t a
    | None => None
    end.
Proof.
  revert acc. induction s as [|c s IH]; intros acc; cbn; [reflexivity|].
  destruct (Bson.hex_digit c); [apply IH | reflexivity].
Qed.

Lemma fromhex_hex_digits (n : nat) (v acc : N) :
  Bson.fromhex (Bson.hex_digits n v "") acc
  = Some (acc * 16 ^ N.of_nat n + v mod 16 ^ N.of_nat n)%N.
Proof.
  revert v acc. induction n as [|n IH]; intros v acc.
  - cbn. f_equal. rewrite N.mod_1_r. lia.
  - cbn [Bson.hex_digits]. rewrite hex_digits_acc, fromhex_app, IH.
    cbn [Bson.fromhex].
    rewrite hex_digit_hex_char by (apply N.mod_lt; lia).
    f_equal. rewrite Nat2N.inj_succ, N.pow_succ_r'.
    rewrite (N.Div0.mod_mul_r v 16 (16 ^ N.of_nat n)). lia.
Qed.

(** An identifier of twelve bytes is read back from its text. *)
Lemma ObjectId_of_str_str (oid : Bson.ObjectId) :
  (oid < 2 ^ 96)%N -> Bson.ObjectId_of_str (Bson.str oid) = Some oid.
Proof.
  intros H. unfold Bson.ObjectId_of_str, Bson.str.
  rewrite hex_digits_length. cbn [Nat.add String.length Nat.eqb].
  rewrite fromhex_hex_digits. f_equal.
  change (16 ^ N.of_nat 24)%N with (2 ^ 96)%N.
  rewrite N.mod_small by exact H. lia.
Qed.

Lemma plain_char_hex_char (d : N) :
  (d < 16)%N -> Deployment.plain_char (Bson.hex_char d) = true.
Proof.
  intros H.
  assert (Hd : In d [0; 1; 2; 3; 4; 5; 6; 7; 8; 9; 10; 11; 12; 13; 14; 15]%N).
  { cbn. lia. }
  cbn in Hd.
  repeat (destruct Hd as [<-|Hd]; [reflexivity|]). destruct Hd.
Qed.

Lemma all_chars_app (f : ascii -> bool) (s t : string) :
  Deployment.all_chars f (s ++ t)
  = Deployment.all_chars f s && Deployment.all_chars f t.
Proof.
  induction s as [|c s IH]; cbn; [reflexivity|].
  now rewrite IH, andb_assoc.
Qed.

Lemma hex_digits_plain (n : nat) (v : N) :
  Deployment.all_chars Deployment.plain_char (Bson.hex_digits n v "") = true.
Proof.
  revert v. induction n as [|n IH]; intros v; cbn; [reflexivity|].
  rewrite hex_digits_acc, all_chars_app, IH. cbn.
  rewrite plain_char_hex_char by (apply N.mod_lt; lia). reflexivity.
Qed.

Lemma plain_char_no_delimiter (c : ascii) :
  Deployment.plain_char c = true ->
  (Ascii.eqb c "?" || Ascii.eqb c "#")%char = false.
Proof.
  destruct c as [[] [] [] [] [] [] [] []]; cbn; intros H;
    try reflexivity; discriminate H.
Qed.

Lemma path_of_plain (s : string) :
  Deployment.all_chars Deployment.plain_char s = true ->
  Deployment.path_of s = s.
Proof.
  induction s as [|c s IH]; cbn; [reflexivity|].
  intros H. apply andb_true_iff in H. destruct H as [Hc Hs].
  rewrite (plain_char_no_delimiter c Hc), IH by exact Hs. reflexivity.
Qed.

(** The text of an identifier reaches [get_user] as it is. *)
Lemma path_param_str (oid : Bson.ObjectId) :
  Deployment.path_param (Bson.str oid) = Some (Bson.str oid).
Proof.
  unfold Deployment.path_param, Bson.str.
  rewrite path_of_plain by apply hex_digits_plain.
  rewrite hex_digits_length, hex_digits_plain. reflexivity.
Qed.

(* ================================================================== *)
(** ** What [POST /orders] does to the collection *)

Lemma create_order_write (p : OrderCreate) (w : world) :
  create_order p w =
  let w1 := sent ("/users/" ++ user_id p) w in
  match gate_result (user_directory w ("/users/" ++ user_id p)) with
  | Raise e => (Raise e, w1)
  | Ok user =>
      if is_None user then
        (Raise (HTTPException 400 "Cannot create order: user not found"), w1)
      else
        match Bson.ObjectId_of_str (user_id p) with
        | None => (Raise (HTTPException 400 "Invalid user id"), w1)
        | Some _ => write_order p (clock w1) w1
        end
  end.
Proof. exact (create_order_eq p w). Qed.

(** The two ends of the write. *)
Lemma write_order_cases (p : OrderCreate) (now : N) (w1 : world) :
  let oid := driver_oid w1 (generated w1) in
  let doc := mkOrderDoc oid (user_id p) (items p) (total p) now in
  (existsb (has_id oid) (orders w1) = true
   /\ fst (write_order p now w1) = Raise DuplicateKeyError
   /\ orders (snd (write_order p now w1)) = orders w1)
  \/ (existsb (has_id oid) (orders w1) = false
      /\ fst (write_order p now w1) = Ok (_serialize_order doc)
      /\ orders (snd (write_order p now w1)) = orders w1 ++ [doc]).
Proof.
  intros oid doc.
  unfold write_order, bind, insert_one, find_one, bind, await. cbn.
  fold oid. destruct (existsb (has_id oid) (orders w1)) eqn:Hf; cbn.
  - left. repeat split.
  - right. fold doc.
    rewrite (find_appended _ _ doc Hf) by (unfold has_id; apply N.eqb_refl).
    repeat split.
Qed.


(** Every end of [create_order]: an exception of status 400, 502, 503 or
    500 with the collection untouched, or one document appended and
    returned. *)
Lemma create_order_cases (p : OrderCreate) (w : world) :
  let doc := mkOrderDoc (driver_oid w (generated w)) (user_id p) (items p)
                        (total p) (clock w + latency w (awaits w))%N in
  (orders (snd (create_order p w)) = orders w
   /\ (exists e, fst (create_order p w) = Raise e)
   /\ In (status (Fastapi.respond 201 (fst (create_order p w))))
         [400; 500; 502; 503]%Z)
  \/ (orders (snd (create_order p w)) = orders w ++ [doc]
      /\ fst (create_order p w) = Ok (_serialize_order doc)
      /\ existsb (has_id (_id doc)) (orders w) = false
      /\ (exists oid, Bson.ObjectId_of_str (user_id p) = Some oid)
      /\ (exists u, validate (user_id p) w = Some (Found u))).
Proof.
  intros doc. rewrite create_order_write, validate_eq. cbv zeta.
  destruct (gate_result _) as [user|e] eqn:Hg.
  - destruct (is_None user) eqn:Hn.
    { left. cbn. split; [reflexivity|]. split; [eexists; reflexivity|auto]. }
    destruct (Bson.ObjectId_of_str (user_id p)) as [oid|] eqn:Hid.
    2:{ left. cbn. split; [reflexivity|]. split; [eexists; reflexivity|auto]. }
    destruct (write_order_cases p
                (clock (sent ("/users/" ++ user_id p) w))
                (sent ("/users/" ++ user_id p) w))
      as [(Hdup & Hr & Ho) | (Hfresh & Hr & Ho)].
    + left. rewrite Hr, Ho. cbn. split; [reflexivity|].
      split; [eexists; reflexivity|auto].
    + right. rewrite Hr, Ho. split; [reflexivity|]. split; [reflexivity|].
      split; [exact Hfresh|]. split; [now exists oid|].
      exists user. destruct user; try reflexivity; discriminate.
  - left. apply gate_result_raises in Hg. cbn [fst snd].
    split; [reflexivity|]. split; [eexists; reflexivity|].
    destruct Hg as [-> | [-> | ->]]; cbn; auto.
Qed.


Lemma app_one_neq {A : Type} (l : list A) (x : A) : l ++ [x] <> l.
Proof.
  intros H. apply (f_equal (@List.length A)) in H.
  rewrite length_app in H. cbn in H. lia.
Qed.

(** X6.  The replies of [POST /orders] and the collection: the status is
    201 exactly when one document was appended, and that document carries
    the body's user identifier, items and total and is what the reply
    shows; with any other status (400, 422, 500, 502 or 503) the
    collection is as it was.  Documents already stored are never changed
    or removed. *)
Theorem post_orders_outcomes (p : OrderCreate) (w : world) :
  let r := fst (POST_orders p w) in
  let w' := snd (POST_orders p w) in
  (status r = 201%Z <-> exists doc, orders w' = orders w ++ [doc])
  /\ (status r <> 201%Z ->
      orders w' = orders w /\ In (status r) [400; 422; 500; 502; 503]%Z)
  /\ (forall doc, orders w' = orders w ++ [doc] ->
      content r = Payload (_serialize_order doc)
      /\ doc_user_id doc = user_id p
      /\ doc_items doc = items p
      /\ doc_total doc = total p).
Proof.
  cbv zeta. destruct (OrderCreate_ok p) eqn:Hok.
  2:{ rewrite POST_orders_rejected by exact Hok. cbn [fst snd].
      split; [split; [discriminate|]|split].
      - intros [doc Hd]. symmetry in Hd. now apply app_one_neq in Hd.
      - intros _. split; [reflexivity|]. cbn. auto.
      - intros doc Hd. symmetry in Hd. now apply app_one_neq in Hd. }
  rewrite POST_orders_ok by exact Hok. cbn [fst snd].
  destruct (create_order_cases p w)
    as [(Ho & [e He] & Hst) | (Ho & Hr & _)].
  - rewrite Ho. split; [split|split].
    + intros H201. rewrite H201 in Hst. cbn in Hst.
      repeat (destruct Hst as [Hst|Hst]; [discriminate Hst|]). destruct Hst.
    + intros [doc Hd]. symmetry in Hd. now apply app_one_neq in Hd.
    + intros _. split; [reflexivity|]. cbn in Hst |- *. tauto.
    + intros doc Hd. symmetry in Hd. now apply app_one_neq in Hd.
  - rewrite Ho, Hr. cbn [Fastapi.respond status content].
    split; [split|split].
    + intros _. eexists; reflexivity.
    + reflexivity.
    + intros H. now contradiction H.
    + intros doc Hd. apply app_inv_head in Hd. injection Hd as <-.
      repeat split.
Qed.









(* ================================================================== *)
(** ** Placing an order, then listing *)






(* ================================================================== *)
(** ** The order-service in front of the user-service *)



Lemma UserOut_validate_to_json (u : UserService.UserOut) :
  OrderServiceProxy.UserOut_validate (UserService.to_json u)
  = Some (OrderServiceProxy.mkUserOut (UserService.out_id u)
            (UserService.out_name u) (UserService.out_email u)).
Proof. reflexivity. Qed.



(* ================================================================== *)
(** ** user-service: creating and fetching users *)

Section UserWrites.

Import UserServiceWrites.

Variable EmailStr : string -> option string.

Lemma user_find_appended (l : list UserService.user_doc)
  (d : UserService.user_doc) :
  existsb (fun x => N.eqb (UserService._id x) (UserService._id d)) l = false ->
  UserService.find_one (l ++ [d]) (UserService._id d) = Some d.
Proof.
  intros H. unfold UserService.find_one.
  apply find_appended; [exact H | apply N.eqb_refl].
Qed.

Lemma user_find_other (l : list UserService.user_doc)
  (d : UserService.user_doc) (oid : Bson.ObjectId) :
  oid <> UserService._id d ->
  UserService.find_one (l ++ [d]) oid = UserService.find_one l oid.
Proof.
  intros Hne. unfold UserService.find_one.
  induction l as [|x l IH]; cbn.
  - destruct (N.eqb_spec (UserService._id d) oid); [congruence|reflexivity].
  - destruct (UserService._id x =? oid)%N; [reflexivity | exact IH].
Qed.

(** Every end of [create_user]. *)
Lemma create_user_cases (payload : UserCreate) (st : store) :
  let oid := driver_oid st (generated st) in
  let doc := UserService.mkUserDoc oid (name payload) (email payload) in
  (existsb (fun x => N.eqb (UserService._id x) oid) (users st) = true
   /\ create_user EmailStr payload st
      = (inl (Exn DuplicateKeyError),
         mkStore (users st) (driver_oid st) (S (generated st))))
  \/ (existsb (fun x => N.eqb (UserService._id x) oid) (users st) = false
      /\ create_user EmailStr payload st
         = (_serialize_user EmailStr doc,
            mkStore (users st ++ [doc]) (driver_oid st) (S (generated st)))).
Proof.
  intros oid doc. unfold create_user, insert_one. fold oid.
  destruct (existsb _ (users st)) eqn:Hf.
  - left. split; reflexivity.
  - right. split; [reflexivity|]. cbn [users]. fold doc.
    change oid with (UserService._id doc) at 1.
    rewrite user_find_appended by exact Hf. reflexivity.
Qed.

(** X11.  [POST /users] of the user-service with a body that passes
    validation, the driver's next identifier being unused: the user is
    appended to the collection with the name as sent and the address as
    [EmailStr] normalised it, and the reply is 201 with the identifier's
    text, the name and the address.  The address is checked again when
    the reply is built; were it refused then, the reply would be 500 with
    the user stored all the same. *)
Theorem create_user_stores_user (raw payload : UserCreate) (st : store) :
  UserCreate_validate EmailStr raw = Some payload ->
  existsb (fun x => N.eqb (UserService._id x) (driver_oid st (generated st)))
          (users st) = false ->
  let oid := driver_oid st (generated st) in
  name payload = name raw
  /\ EmailStr (email raw) = Some (email payload)
  /\ users (snd (POST_users EmailStr raw st))
     = users st ++ [UserService.mkUserDoc oid (name raw) (email payload)]
  /\ fst (POST_users EmailStr raw st)
     = match EmailStr (email payload) with
       | Some e =>
           mkReply 201 (Payload (UserService.mkUserOut (Bson.str oid)
                                   (name raw) e))
       | None => mkReply 500 InternalServerError
       end.
Proof.
  intros Hv Hfresh oid. unfold POST_users. rewrite Hv.
  assert (Hp : name payload = name raw
               /\ EmailStr (email raw) = Some (email payload)).
  { unfold UserCreate_validate in Hv.
    destruct (_ && _); [|discriminate].
    destruct (EmailStr (email raw)) as [e|]; [|discriminate].
    injection Hv as <-. split; reflexivity. }
  destruct Hp as [Hn He]. split; [exact Hn|]. split; [exact He|].
  subst oid.
  destruct (create_user_cases payload st) as [(Hdup & _) | (_ & Hc)].
  { cbv zeta in Hdup. congruence. }
  cbv zeta in Hc. rewrite Hc. cbn [fst snd users]. rewrite Hn.
  split; [reflexivity|].
  unfold _serialize_user. cbn [UserService.email UserService._id
                              UserService.name].
  destruct (EmailStr (email payload)); reflexivity.
Qed.

(** X12.  [POST /users] of the user-service with a name that is empty or
    longer than 100 characters, or with an address [EmailStr] refuses, is
    answered 422; the collection is untouched and no identifier is
    used. *)
Theorem create_user_rejects_invalid (raw : UserCreate) (st : store) :
  (String.length (name raw) < 1)%nat
  \/ (100 < String.length (name raw))%nat
  \/ EmailStr (email raw) = None ->
  POST_users EmailStr raw st = (Fastapi.reject, st)
  /\ status (fst (POST_users EmailStr raw st)) = 422%Z.
Proof.
  intros H.
  assert (Hv : UserCreate_validate EmailStr raw = None).
  { unfold UserCreate_validate.
    destruct H as [H|[H|H]].
    - apply Nat.leb_gt in H. now rewrite H.
    - apply Nat.leb_gt in H. rewrite H, andb_false_r. reflexivity.
    - rewrite H. now destruct (_ && _). }
  unfold POST_users. rewrite Hv. split; reflexivity.
Qed.

(** What a 201 of [POST /users] tells. *)
Lemma POST_users_created (raw : UserCreate) (st : store)
  (u : UserService.UserOut) :
  fst (POST_users EmailStr raw st) = mkReply 201 (Payload u) ->
  exists payload,
    let doc := UserService.mkUserDoc (driver_oid st (generated st))
                                     (name payload) (email payload) in
    UserCreate_validate EmailStr raw = Some payload
    /\ existsb (fun x => N.eqb (UserService._id x)
                               (driver_oid st (generated st)))
               (users st) = false
    /\ users (snd (POST_users EmailStr raw st)) = users st ++ [doc]
    /\ _serialize_user EmailStr doc = inr u.
Proof.
  unfold POST_users.
  destruct (UserCreate_validate EmailStr raw) as [payload|];
    [|discriminate].
  intros H. exists payload. cbv zeta.
  destruct (create_user_cases payload st) as [(_ & Hc) | (Hf & Hc)];
    rewrite Hc in H |- *; cbn [fst snd users] in *.
  - discriminate H.
  - split; [reflexivity|]. split; [exact Hf|]. split; [reflexivity|].
    destruct (_serialize_user EmailStr _) as [r|u'].
    + destruct r as [[]|]; discriminate H.
    + cbn in H. now injection H as ->.
Qed.

(** X13.  A user that [POST /users] answered 201 for is fetched by
    [GET /users/{id}] under the identifier of that reply, and the two
    replies show the same record. *)
Theorem created_user_can_be_fetched (raw : UserCreate) (st : store)
  (u : UserService.UserOut) :
  fst (POST_users EmailStr raw st) = mkReply 201 (Payload u) ->
  (driver_oid st (generated st) < 2 ^ 96)%N ->
  GET_users_id EmailStr (UserService.out_id u)
               (snd (POST_users EmailStr raw st))
  = mkReply 200 (Payload u).
Proof.
  intros H Hb.
  destruct (POST_users_created raw st u H) as (payload & _ & Hf & Hu & Hs).
  cbv zeta in Hu, Hs.
  assert (Hid : UserService.out_id u
                = Bson.str (driver_oid st (generated st))).
  { unfold _serialize_user in Hs. cbn in Hs.
    destruct (EmailStr (email payload)); [|discriminate].
    now injection Hs as <-. }
  unfold GET_users_id, get_user.
  rewrite Hid, ObjectId_of_str_str by exact Hb. rewrite Hu.
  set (doc := UserService.mkUserDoc _ _ _) in *.
  change (driver_oid st (generated st)) with (UserService._id doc).
  rewrite user_find_appended by exact Hf. rewrite Hs. reflexivity.
Qed.

(** X14.  Creating a user changes the answer of [get_user] for no other
    identifier, and the users stored before stay, in their order, at the
    head of the collection. *)
Theorem create_user_keeps_other_users (raw : UserCreate) (st : store)
  (user_id : string) :
  Bson.ObjectId_of_str user_id <> Some (driver_oid st (generated st)) ->
  get_user EmailStr user_id (snd (POST_users EmailStr raw st))
  = get_user EmailStr user_id st
  /\ firstn (List.length (users st)) (users (snd (POST_users EmailStr raw st)))
     = users st.
Proof.
  intros Hne. unfold POST_users.
  destruct (UserCreate_validate EmailStr raw) as [payload|].
  2:{ cbn [snd]. split; [reflexivity | apply firstn_all]. }
  destruct (create_user_cases payload st) as [(_ & Hc) | (_ & Hc)];
    rewrite Hc; cbn [snd].
  - split; [reflexivity | apply firstn_all].
  - split.
    + unfold get_user. cbn [users].
      destruct (Bson.ObjectId_of_str user_id) as [oid|]; [|reflexivity].
      rewrite user_find_other; [reflexivity|].
      cbn. intros ->. now apply Hne.
    + cbn [users]. rewrite firstn_app, Nat.sub_diag, firstn_all. cbn.
      apply app_nil_r.
Qed.

Lemma users_ok_register (st : store) (raw : UserCreate) :
  users_ok EmailStr st -> users_ok EmailStr (register EmailStr st raw).
Proof.
  intros [Hu Hv]. unfold register, POST_users.
  destruct (UserCreate_validate EmailStr raw) as [payload|] eqn:Hval.
  2:{ now constructor. }
  destruct (create_user_cases payload st) as [(_ & Hc) | (Hf & Hc)];
    rewrite Hc; cbn [snd]; constructor; cbn [users]; try assumption.
  - rewrite map_app. cbn [map UserService._id].
    apply (Permutation_NoDup (Permutation_cons_append _ _)).
    constructor; [|exact Hu].
    intros Hin. apply in_map_iff in Hin. destruct Hin as (d & Hd & Hin).
    assert (Ht : existsb (fun x => N.eqb (UserService._id x)
                                         (driver_oid st (generated st)))
                         (users st) = true).
    { apply existsb_exists. exists d. split; [exact Hin|].
      now apply N.eqb_eq. }
    congruence.
  - apply Forall_app. split; [exact Hv|]. constructor; [|constructor].
    unfold UserCreate_validate in Hval.
    destruct (_ && _) eqn:Hlen; [|discriminate].
    destruct (EmailStr (email raw)) as [e|] eqn:He; [|discriminate].
    injection Hval as <-. cbn.
    apply andb_true_iff in Hlen. destruct Hlen as [H1 H2].
    apply Nat.leb_le in H1, H2. unfold user_doc_ok. cbn.
    split; [lia|]. now exists (email raw).
Qed.

(** X15.  Whatever bodies are posted to the user-service, one after the
    other, no two stored users share an identifier, every stored name has
    1 to 100 characters and every stored address came out of
    [EmailStr]. *)
Theorem users_ok_preserved (st : store) (bodies : list UserCreate) :
  users_ok EmailStr st ->
  users_ok EmailStr (fold_left (register EmailStr) bodies st).
Proof.
  revert st. induction bodies as [|raw rest IH]; intros st Hok; cbn.
  - exact Hok.
  - apply IH. now apply users_ok_register.
Qed.

(** X16.  When [EmailStr] leaves its normal forms as they are, the check
    of the address on the way out never fails for a collection
    [POST /users] has built: [GET /users/{user_id}] answers what
    [get_user] finds, 400, 404 or 200 with the stored record, and never
    500. *)
Theorem get_user_never_fails_on_address (st : store) (user_id : string) :
  stable EmailStr ->
  users_ok EmailStr st ->
  GET_users_id EmailStr user_id st
  = Fastapi.respond 200 (UserService.get_user (users st) user_id)
  /\ status (GET_users_id EmailStr user_id st) <> 500%Z.
Proof.
  intros Hstable [_ Hv].
  assert (H : GET_users_id EmailStr user_id st
              = Fastapi.respond 200 (UserService.get_user (users st) user_id)).
  { unfold GET_users_id, get_user, UserService.get_user.
    destruct (Bson.ObjectId_of_str user_id) as [oid|]; [|reflexivity].
    destruct (UserService.find_one (users st) oid) as [doc|] eqn:Hf;
      [|reflexivity].
    unfold UserService.find_one in Hf. apply find_some in Hf.
    destruct Hf as [Hin _].
    rewrite Forall_forall in Hv. destruct (Hv doc Hin) as [_ [r Hr]].
    unfold _serialize_user. rewrite (Hstable _ _ Hr). reflexivity. }
  split; [exact H|]. rewrite H.
  unfold UserService.get_user.
  destruct (Bson.ObjectId_of_str user_id) as [oid|]; [|discriminate].
  destruct (UserService.find_one (users st) oid); discriminate.
Qed.

End UserWrites.

(** X11, witness: the first user of an empty user-service. *)
Lemma create_user_stores_user_witness :
  fst (UserServiceWrites.POST_users Sample2.EmailStr Sample2.ann_body
         Sample2.empty_store)
  = mkReply 201 (Payload Sample2.ann_out).
Proof.
  apply (create_user_stores_user Sample2.EmailStr Sample2.ann_body
           Sample2.ann_body Sample2.empty_store eq_refl eq_refl).
Defined.

(** X12, witness: a body whose address has no ['@']. *)
Lemma create_user_rejects_invalid_witness :
  status (fst (UserServiceWrites.POST_users Sample2.EmailStr
                 Sample2.no_address Sample2.empty_store)) = 422%Z.
Proof.
  apply (create_user_rejects_invalid Sample2.EmailStr Sample2.no_address
           Sample2.empty_store).
  right; right. reflexivity.
Defined.

(** X13, witness: the first user is fetched under the identifier of the
    reply. *)
Lemma created_user_can_be_fetched_witness :
  UserServiceWrites.GET_users_id Sample2.EmailStr "507f1f77bcf86cd799439011"
    (snd (UserServiceWrites.POST_users Sample2.EmailStr Sample2.ann_body
            Sample2.empty_store))
  = mkReply 200 (Payload Sample2.ann_out).
Proof.
  apply (created_user_can_be_fetched Sample2.EmailStr Sample2.ann_body
           Sample2.empty_store Sample2.ann_out eq_refl).
  vm_compute. reflexivity.
Defined.

(** X14, witness: an identifier other than the next one is still unknown
    after a user has been created. *)
Lemma create_user_keeps_other_users_witness :
  UserServiceWrites.get_user Sample2.EmailStr "507f1f77bcf86cd799439012"
    (snd (UserServiceWrites.POST_users Sample2.EmailStr Sample2.ann_body
            Sample2.empty_store))
  = UserServiceWrites.get_user Sample2.EmailStr "507f1f77bcf86cd799439012"
      Sample2.empty_store.
Proof.
  apply (create_user_keeps_other_users Sample2.EmailStr Sample2.ann_body
           Sample2.empty_store "507f1f77bcf86cd799439012").
  vm_compute. discriminate.
Defined.

(** X15, witness: three bodies posted to an empty user-service. *)
Lemma users_ok_preserved_witness :
  users_ok Sample2.EmailStr
    (fold_left (register Sample2.EmailStr)
       [Sample2.ann_body; Sample2.no_address; Sample2.ann_body]
       Sample2.empty_store).
Proof.
  apply (users_ok_preserved Sample2.EmailStr Sample2.empty_store).
  constructor; cbn; constructor.
Defined.

Lemma sample_EmailStr_stable : stable Sample2.EmailStr.
Proof.
  intros a b. unfold Sample2.EmailStr.
  destruct (Sample2.has_at a) eqn:Ha; [|discriminate].
  intros [= <-]. now rewrite Ha.
Qed.

(** X16, witness: a malformed identifier against a store with one
    user. *)
Lemma get_user_never_fails_on_address_witness :
  UserServiceWrites.GET_users_id Sample2.EmailStr "u1"
    (register Sample2.EmailStr Sample2.empty_store Sample2.ann_body)
  = mkReply 400 (Detail "Invalid user id").
Proof.
  apply (get_user_never_fails_on_address Sample2.EmailStr
           (register Sample2.EmailStr Sample2.empty_store Sample2.ann_body)
           "u1" sample_EmailStr_stable).
  apply (users_ok_register Sample2.EmailStr).
  constructor; cbn; constructor.
Defined.

(* ================================================================== *)
(** ** order-service: creating users through the proxy *)

Section UserProxy.

Import OrderServiceProxy.

Variable post : string -> json -> outcome.


End UserProxy.

(** X18.  The proxy in front of the user-service.  For a body the
    order-service lets through, the status of its reply is the status of
    the user-service's reply: 201 with the same identifier, name and
    address when the user was created, and 422 with the user-service's
    body as detail when [EmailStr] refuses the address, which the
    order-service itself does not check. *)
Theorem user_created_through_proxy (EmailStr : string -> option string)
  (post : string -> json -> OrderServiceProxy.outcome)
  (raw : OrderServiceProxy.UserCreate) (st : UserServiceWrites.store)
  (text : string) :
  OrderServiceProxy.UserCreate_ok raw = true ->
  post "/users" (OrderServiceProxy.model_dump raw)
  = OrderServiceProxy.Received
      (carried (fst (UserServiceWrites.POST_users EmailStr (forwarded raw) st))
               text) ->
  status (OrderServiceProxy.POST_users post raw)
  = status (fst (UserServiceWrites.POST_users EmailStr (forwarded raw) st))
  /\ (forall u,
        fst (UserServiceWrites.POST_users EmailStr (forwarded raw) st)
        = mkReply 201 (Payload u) ->
        OrderServiceProxy.POST_users post raw
        = mkReply 201 (Payload (OrderServiceProxy.mkUserOut
                                  (UserService.out_id u)
                                  (UserService.out_name u)
                                  (UserService.out_email u))))
  /\ (EmailStr (OrderServiceProxy.email raw) = None ->
      OrderServiceProxy.POST_users post raw = mkReply 422 (Detail text)).
Proof.
  intros Hok Hpost.
  unfold OrderServiceProxy.POST_users, OrderServiceProxy.proxy_create_user.
  rewrite Hok, Hpost.
  unfold UserServiceWrites.POST_users, UserServiceWrites.UserCreate_validate.
  cbn [forwarded UserServiceWrites.name UserServiceWrites.email].
  unfold OrderServiceProxy.UserCreate_ok in Hok. rewrite Hok.
  destruct (EmailStr (OrderServiceProxy.email raw)) as [e|].
  2:{ cbn. split; [reflexivity|].
      split; [intros u H; discriminate H | intros _; reflexivity]. }
  destruct (create_user_cases EmailStr
              (UserServiceWrites.mkUserCreate (OrderServiceProxy.name raw) e)
              st) as [(_ & Hc) | (_ & Hc)];
    cbv zeta in Hc; rewrite Hc.
  - cbn. split; [reflexivity|].
    split; [intros u H; discriminate H | intros H; discriminate H].
  - unfold UserServiceWrites._serialize_user.
    cbn [UserService.email UserServiceWrites.email].
    destruct (EmailStr e); cbn; (split; [reflexivity|]).
    + split; [intros u' [= <-]; reflexivity | intros H; discriminate H].
    + split; [intros u H; discriminate H | intros H; discriminate H].
Qed.

(** X18, witness: a body without a valid address goes through the
    order-service and comes back 422 from the user-service. *)
Lemma user_created_through_proxy_witness :
  OrderServiceProxy.POST_users
    (Sample2.user_service_post Sample2.empty_store) Sample2.bob_body
  = mkReply 422 (Detail "").
Proof.
  apply (user_created_through_proxy Sample2.EmailStr
           (Sample2.user_service_post Sample2.empty_store) Sample2.bob_body
           Sample2.empty_store "" eq_refl eq_refl).
  reflexivity.
Defined.

(* ================================================================== *)
(** ** From a new user to an order *)

(** X19.  A user the user-service answered 201 for can be ordered for:
    with that user-service as the directory, [POST /orders] with the
    identifier of the reply as [user_id] answers 201 and stores the order
    under that identifier. *)
Theorem order_for_created_user (EmailStr : string -> option string)
  (raw : UserServiceWrites.UserCreate) (st : UserServiceWrites.store)
  (u : UserService.UserOut) (p : OrderCreate) (w : world) :
  fst (UserServiceWrites.POST_users EmailStr raw st)
  = mkReply 201 (Payload u) ->
  (UserServiceWrites.driver_oid st (UserServiceWrites.generated st)
   < 2 ^ 96)%N ->
  Deployment.serves
    (UserServiceWrites.users
       (snd (UserServiceWrites.POST_users EmailStr raw st)))
    (user_directory w) ->
  OrderCreate_ok p = true ->
  user_id p = UserService.out_id u ->
  next_id_fresh w ->
  status (fst (POST_orders p w)) = 201%Z
  /\ exists doc,
       orders (snd (POST_orders p w)) = orders w ++ [doc]
       /\ doc_user_id doc = UserService.out_id u
       /\ content (fst (POST_orders p w)) = Payload (_serialize_order doc).
Proof.
  intros Hcreated Hb Hs Hok Hu Hfresh.
  destruct (POST_users_created EmailStr raw st u Hcreated)
    as (payload & _ & Hf & Husers & Hser).
  cbv zeta in Husers, Hser.
  set (oid := UserServiceWrites.driver_oid st (UserServiceWrites.generated st))
    in *.
  assert (Hid : UserService.out_id u = Bson.str oid).
  { unfold UserServiceWrites._serialize_user in Hser. cbn in Hser.
    destruct (EmailStr (UserServiceWrites.email payload)); [|discriminate].
    now injection Hser as <-. }
  assert (Hpp : Deployment.path_param (user_id p) = Some (user_id p)).
  { rewrite Hu, Hid. apply path_param_str. }
  assert (Hparse : Bson.ObjectId_of_str (user_id p) = Some oid).
  { rewrite Hu, Hid. now apply ObjectId_of_str_str. }
  rewrite POST_orders_ok by exact Hok. cbn [fst snd].
  rewrite create_order_write. cbv zeta.
  rewrite (Hs _ _ Hpp), gate_result_of_get_user, Hparse, Husers.
  set (udoc := UserService.mkUserDoc oid _ _) in *.
  assert (Hfind : UserService.find_one (UserServiceWrites.users st ++ [udoc])
                                       oid = Some udoc)
    by exact (user_find_appended (UserServiceWrites.users st) udoc Hf).
  rewrite Hfind. cbn [is_None UserService.to_json].
  destruct (write_order_cases p
              (clock (sent ("/users/" ++ user_id p) w))
              (sent ("/users/" ++ user_id p) w))
    as [(Hdup & _) | (_ & Hr & Ho)].
  { unfold next_id_fresh in Hfresh. cbn in Hdup. congruence. }
  rewrite Hr, Ho. split; [reflexivity|].
  eexists. split; [reflexivity|]. split; [exact Hu | reflexivity].
Qed.

(** X19, witness: the first user of an empty user-service, then an order
    for the identifier it was given. *)
Lemma order_for_created_user_witness :
  status (fst (POST_orders (Sample.order_for "507f1f77bcf86cd799439011")
                           Sample.deployed)) = 201%Z.
Proof.
  apply (order_for_created_user Sample2.EmailStr Sample2.ann_body
           Sample2.empty_store Sample2.ann_out
           (Sample.order_for "507f1f77bcf86cd799439011") Sample.deployed
           eq_refl eq_refl (user_service_serves Sample.users)
           eq_refl eq_refl eq_refl).
Defined.

